(** * Scoring core of the opposition-research application

    A shallow embedding of the decision logic of [app_dev_rewrite.py]:
    the keyword classifier [VoteScorer._vote_aligns_with_values], the
    per-vote scorer [VoteScorer.score_vote] and the aggregation
    [ScoringEngine.calculate_overall_score] with its threshold table
    [ScoringEngine._score_to_category].

    Numbers.  The Python code computes on [float] (IEEE-754 binary64) and
    on the [int] literals [0], [2], [100], [80], ...  The functions below
    are written once, over an interface [PyNumber] of the arithmetic they
    use, and read at two instances:

    - [Q]: every number is the rational it denotes and arithmetic is exact.
      This is the arithmetic of the specification (``50 + (75-50)*0.25*2 =
      62.5''); the laws of the scorer and of the engine are proved at this
      instance.
    - [pynum]: Python's [int] and binary64 [float], bit for bit, through
      the executable IEEE-754 operations of [SpecFloat].  The code is
      evaluated at it on concrete inputs, and the laws that do not hinge
      on rounding are repeated on doubles at the end.

    Strings are byte strings; [lower] folds the ASCII letters. *)

From Stdlib Require Import ZArith QArith Lqa Lia Bool List String Ascii Permutation.
From Stdlib Require Import Floats.SpecFloat.
From stdpp Require Import base decidable countable gmap strings.

Import ListNotations.
Local Open Scope string_scope.

(** ** Core data models *)

Inductive PolicyArea : Set :=
  | TAX_POLICY | REGULATION | SPENDING | TRADE | LABOR_POLICY.

Inductive VoteResult : Set :=
  | YEA | NAY | PRESENT | ABSENT.

Inductive ScoreCategory : Set :=
  | STRONGLY_PRO_MARKET      (* 80-100 *)
  | LEANS_PRO_MARKET         (* 60-79 *)
  | MIXED_MODERATE           (* 40-59 *)
  | LEANS_REGULATORY         (* 20-39 *)
  | STRONGLY_REGULATORY.     (* 0-19 *)

#[global] Instance PolicyArea_eq_dec : EqDecision PolicyArea.
Proof. solve_decision. Defined.

#[global] Instance VoteResult_eq_dec : EqDecision VoteResult.
Proof. solve_decision. Defined.

#[global] Instance ScoreCategory_eq_dec : EqDecision ScoreCategory.
Proof. solve_decision. Defined.

Definition PolicyArea_code (a : PolicyArea) : nat :=
  match a with
  | TAX_POLICY => 0 | REGULATION => 1 | SPENDING => 2 | TRADE => 3
  | LABOR_POLICY => 4
  end.

Definition PolicyArea_decode (n : nat) : option PolicyArea :=
  match n with
  | 0 => Some TAX_POLICY | 1 => Some REGULATION | 2 => Some SPENDING
  | 3 => Some TRADE | 4 => Some LABOR_POLICY | _ => None
  end.

#[global] Program Instance PolicyArea_countable : Countable PolicyArea :=
  inj_countable PolicyArea_code PolicyArea_decode _.
Next Obligation. by intros []. Qed.

Definition ScoreCategory_code (c : ScoreCategory) : nat :=
  match c with
  | STRONGLY_PRO_MARKET => 0 | LEANS_PRO_MARKET => 1 | MIXED_MODERATE => 2
  | LEANS_REGULATORY => 3 | STRONGLY_REGULATORY => 4
  end.

Definition ScoreCategory_decode (n : nat) : option ScoreCategory :=
  match n with
  | 0 => Some STRONGLY_PRO_MARKET | 1 => Some LEANS_PRO_MARKET
  | 2 => Some MIXED_MODERATE | 3 => Some LEANS_REGULATORY
  | 4 => Some STRONGLY_REGULATORY | _ => None
  end.

#[global] Program Instance ScoreCategory_countable : Countable ScoreCategory :=
  inj_countable ScoreCategory_code ScoreCategory_decode _.
Next Obligation. by intros []. Qed.

(** ** The arithmetic the scoring code uses *)

(** [of_int] reads an [int] (a literal or [len(...)]), [of_float] a [float]
    literal written as the decimal fraction of the source.  [py_lt a b] is
    [a < b], which is also how Python evaluates [b > a] on numbers;
    [py_le a b] is [a <= b], that is [b >= a]. *)
Class PyNumber (num : Type) : Type := {
  of_int : Z -> num;
  of_float : Q -> num;
  py_add : num -> num -> num;
  py_sub : num -> num -> num;
  py_mul : num -> num -> num;
  py_truediv : num -> num -> num;
  py_lt : num -> num -> bool;
  py_le : num -> num -> bool
}.

Declare Scope py_scope.
Delimit Scope py_scope with py.
Infix "+" := py_add : py_scope.
Infix "-" := py_sub : py_scope.
Infix "*" := py_mul : py_scope.
Infix "/" := py_truediv : py_scope.

(** Exact arithmetic. *)
Definition Qlt_bool (x y : Q) : bool :=
  match Qcompare x y with Lt => true | _ => false end.

#[global] Instance Q_number : PyNumber Q := {|
  of_int := inject_Z;
  of_float := fun q => q;
  py_add := Qplus;
  py_sub := Qminus;
  py_mul := Qmult;
  py_truediv := Qdiv;
  py_lt := Qlt_bool;
  py_le := Qle_bool
|}.

(** Python numbers: unbounded [int] and binary64 [float]. *)
Inductive pynum : Set :=
  | PyInt (z : Z)
  | PyFloat (f : spec_float).

Module Binary64.

Definition prec : Z := 53.
Definition emax : Z := 1024.

(** [float(z)]: the double nearest to [z], ties to even. *)
Definition float_of_Z (z : Z) : spec_float :=
  binary_normalize prec emax z 0 false.

(** A decimal literal [n/d] denotes the double nearest to it: the
    correctly rounded quotient of the two integers. *)
Definition float_of_Q (q : Q) : spec_float :=
  match Qnum q with
  | Z0 => S754_zero false
  | Zpos n => SFdiv prec emax (S754_finite false n 0) (S754_finite false (Qden q) 0)
  | Zneg n => SFdiv prec emax (S754_finite true n 0) (S754_finite false (Qden q) 0)
  end.

(** The coercion of a mixed [int]/[float] operation. *)
Definition as_float (x : pynum) : spec_float :=
  match x with
  | PyInt z => float_of_Z z
  | PyFloat f => f
  end.

Definition add (x y : pynum) : pynum :=
  match x, y with
  | PyInt a, PyInt b => PyInt (a + b)
  | _, _ => PyFloat (SFadd prec emax (as_float x) (as_float y))
  end.

Definition sub (x y : pynum) : pynum :=
  match x, y with
  | PyInt a, PyInt b => PyInt (a - b)
  | _, _ => PyFloat (SFsub prec emax (as_float x) (as_float y))
  end.

Definition mul (x y : pynum) : pynum :=
  match x, y with
  | PyInt a, PyInt b => PyInt (a * b)
  | _, _ => PyFloat (SFmul prec emax (as_float x) (as_float y))
  end.

(** [x / y] is true division: always a [float].  The only division of
    the scoring code has [len] of a non-empty list as divisor. *)
Definition truediv (x y : pynum) : pynum :=
  PyFloat (SFdiv prec emax (as_float x) (as_float y)).

(** Comparisons; an [int] met here is one of the small literals, which
    [float_of_Z] represents exactly. *)
Definition lt (x y : pynum) : bool :=
  match x, y with
  | PyInt a, PyInt b => (a <? b)%Z
  | _, _ => SFltb (as_float x) (as_float y)
  end.

Definition le (x y : pynum) : bool :=
  match x, y with
  | PyInt a, PyInt b => (a <=? b)%Z
  | _, _ => SFleb (as_float x) (as_float y)
  end.

(** A finite double: neither an infinity nor a NaN. *)
Definition is_finite (f : spec_float) : bool :=
  match f with
  | S754_zero _ | S754_finite _ _ _ => true
  | S754_infinity _ | S754_nan => false
  end.

(** The builtin [sum] of CPython 3.12 and later keeps the plain
    left-to-right additions for the leading [int] items and for the first
    [float] met, and from there on adds the [float] items with a running
    compensation [c] (Neumaier), which is added once at the end when it is
    finite and not zero; an [int] item met later is added without
    compensation. *)
Fixpoint sum_floats (xs : list pynum) (f c : spec_float) : spec_float :=
  match xs with
  | [] =>
      if is_finite c && negb (SFeqb c (S754_zero false))
      then SFadd prec emax f c else f
  | PyFloat x :: xs' =>
      let t := SFadd prec emax f x in
      let e := if SFleb (SFabs x) (SFabs f)
               then SFadd prec emax (SFsub prec emax f t) x
               else SFadd prec emax (SFsub prec emax x t) f in
      sum_floats xs' t (SFadd prec emax c e)
  | PyInt z :: xs' => sum_floats xs' (SFadd prec emax f (float_of_Z z)) c
  end.

Fixpoint sum_ints (xs : list pynum) (i : Z) : pynum :=
  match xs with
  | [] => PyInt i
  | PyInt z :: xs' => sum_ints xs' (i + z)
  | PyFloat x :: xs' =>
      PyFloat (sum_floats xs' (SFadd prec emax (float_of_Z i) x) (S754_zero false))
  end.

Definition sum_compensated (xs : list pynum) : pynum := sum_ints xs 0.

End Binary64.

#[global] Instance pynum_number : PyNumber pynum := {|
  of_int := PyInt;
  of_float := fun q => PyFloat (Binary64.float_of_Q q);
  py_add := Binary64.add;
  py_sub := Binary64.sub;
  py_mul := Binary64.mul;
  py_truediv := Binary64.truediv;
  py_lt := Binary64.lt;
  py_le := Binary64.le
|}.

(** ** Client configuration and research data *)

(** [datetime] values are carried as POSIX seconds; no function of the
    scoring core reads them. *)
Definition datetime : Set := Z.

(** Field [description] of [ClientValues] is [client_description] here and
    field [policy_area] of [PolicyPosition] is [position_policy_area]:
    [VerifiableVote] has fields of both names. *)
Record ClientValues (num : Type) : Type := {
  name : string;
  client_description : string;
  policy_weights : gmap PolicyArea num;
  score_interpretation : gmap ScoreCategory string;
  preferred_vote_outcomes : gmap string bool   (* bill_type -> preferred_outcome *)
}.

Arguments name {num} _.
Arguments client_description {num} _.
Arguments policy_weights {num} _.
Arguments score_interpretation {num} _.
Arguments preferred_vote_outcomes {num} _.

Record VerifiableVote : Type := {
  bill_id : string;
  bill_name : string;
  vote_date : datetime;
  vote_result : VoteResult;
  policy_area : PolicyArea;
  description : string;
  source_url : option string;
  verification_status : string      (* verified, disputed, unverified *)
}.

Record PolicyPosition : Type := {
  position_policy_area : PolicyArea;
  stance_summary : string;
  evidence_sources : list string;
  confidence_level : string;
  last_updated : datetime
}.

Record CandidateProfile : Type := {
  candidate_id : string;
  full_name : string;
  office : string;
  party : string;
  state_district : string;
  committee_assignments : list string;
  years_in_office : option Z;
  next_election : option datetime
}.

Record ResearchResult (num : Type) : Type := {
  candidate : CandidateProfile;
  policy_positions : list PolicyPosition;
  verified_votes : list VerifiableVote;
  economic_score : num;
  score_category : ScoreCategory;
  client_values_used : string;
  research_timestamp : datetime;
  data_completeness : num
}.

Arguments candidate {num} _.
Arguments policy_positions {num} _.
Arguments verified_votes {num} _.
Arguments economic_score {num} _.
Arguments score_category {num} _.
Arguments client_values_used {num} _.
Arguments research_timestamp {num} _.
Arguments data_completeness {num} _.

(** ** Strings: [str.lower] and the substring test [term in s] *)

Definition lower_ascii (c : ascii) : ascii :=
  let n := nat_of_ascii c in
  if (65 <=? n)%nat && (n <=? 90)%nat then ascii_of_nat (n + 32) else c.

Fixpoint lower (s : string) : string :=
  match s with
  | EmptyString => EmptyString
  | String c s' => String (lower_ascii c) (lower s')
  end.

(** [str_in term s] is Python's [term in s]. *)
Fixpoint str_in (term s : string) : bool :=
  if String.prefix term s then true
  else match s with
       | EmptyString => false
       | String _ s' => str_in term s'
       end.

(** [any_in terms s] is [any(term in s for term in terms)]. *)
Definition any_in (terms : list string) (s : string) : bool :=
  existsb (fun term => str_in term s) terms.

(** ** VoteScorer: the keyword tables *)

Definition tax_cut_terms : list string :=
  ["tax cut"; "reduce tax"; "tax reduction"; "tax relief"; "lower tax"; "tax decrease"].
Definition tax_increase_terms : list string :=
  ["tax increase"; "raise tax"; "higher tax"; "tax hike"].

Definition dereg_terms : list string :=
  ["deregulat"; "reduce regulation"; "eliminate regulation"; "regulatory relief"].
Definition reg_terms : list string :=
  ["new regulation"; "increase regulation"; "expand regulation"; "regulatory expansion"].

Definition cut_terms : list string :=
  ["cut spending"; "reduce budget"; "spending reduction"; "fiscal restraint"].
Definition increase_terms : list string :=
  ["increase spending"; "expand budget"; "spending increase"; "more funding"].

Definition trade_terms : list string :=
  ["free trade"; "trade agreement"; "reduce tariff"; "eliminate tariff"].
Definition protectionist_terms : list string :=
  ["increase tariff"; "trade protection"; "import restriction"].

Definition labor_freedom_terms : list string :=
  ["reduce minimum wage"; "labor flexibility"; "right to work"].
Definition labor_restriction_terms : list string :=
  ["increase minimum wage"; "expand union"; "worker protection"].



(** [VoteScorer._vote_aligns_with_values]: every [return] of the source is
    a leaf; the last [false] of a branch is the fall-through to the final
    [return False]. *)
Definition _vote_aligns_with_values (vote : VerifiableVote) : bool :=
  let description_lower := lower (description vote) in
  match policy_area vote with
  | TAX_POLICY =>
      if any_in tax_cut_terms description_lower then true
      else if any_in tax_increase_terms description_lower then false
      else false
  | REGULATION =>
      if any_in dereg_terms description_lower then true
      else if any_in reg_terms description_lower then false
      else false
  | SPENDING =>
      if any_in cut_terms description_lower then true
      else if any_in increase_terms description_lower then false
      else false
  | TRADE =>
      if any_in trade_terms description_lower then true
      else if any_in protectionist_terms description_lower then false
      else false
  | LABOR_POLICY =>
      if any_in labor_freedom_terms description_lower then true
      else if any_in labor_restriction_terms description_lower then false
      else false
  end.

(** ** VoteScorer.score_vote and ScoringEngine *)

Section Scoring.

Context {num : Type} `{PyNumber num}.

Local Open Scope py_scope.

(** Python's two-argument [min] and [max] keep the first argument unless
    the second is strictly smaller (greater). *)
Definition py_min (a b : num) : num := if py_lt b a then b else a.
Definition py_max (a b : num) : num := if py_lt a b then b else a.

Definition base_score : num := of_float 50.

(** The local [alignment_score] of [score_vote]. *)
Definition alignment_score (vote : VerifiableVote) : num :=
  let vote_aligns := _vote_aligns_with_values vote in
  match vote_result vote with
  | YEA => if vote_aligns then of_float 75 else of_float 25
  | NAY => if vote_aligns then of_float 25 else of_float 75
  | PRESENT | ABSENT => of_float 50
  end.

(** The local [area_weight]: [policy_weights.get(vote.policy_area, 0.2)]. *)
Definition area_weight (client_values : ClientValues num) (vote : VerifiableVote) : num :=
  default (of_float 0.2) (policy_weights client_values !! policy_area vote).

Definition score_vote (client_values : ClientValues num) (vote : VerifiableVote) : num :=
  let final_score :=
    base_score
    + (alignment_score vote - base_score) * area_weight client_values vote * of_int 2 in
  py_max (of_int 0) (py_min (of_int 100) final_score).

Definition _score_to_category (score : num) : ScoreCategory :=
  if py_le (of_int 80) score then STRONGLY_PRO_MARKET
  else if py_le (of_int 60) score then LEANS_PRO_MARKET
  else if py_le (of_int 40) score then MIXED_MODERATE
  else if py_le (of_int 20) score then LEANS_REGULATORY
  else STRONGLY_REGULATORY.

(** [sum(xs)]: the items are added left to right to the start value [0]. *)
Definition py_sum (xs : list num) : num := fold_left py_add xs (of_int 0).

Definition calculate_overall_score (client_values : ClientValues num)
    (research_result : ResearchResult num) : num * ScoreCategory :=
  match verified_votes research_result with
  | [] => (of_float 50, MIXED_MODERATE)
  | _ :: _ =>
      let vote_scores := map (score_vote client_values) (verified_votes research_result) in
      let overall_score := py_sum vote_scores / of_int (Z.of_nat (length vote_scores)) in
      (overall_score, _score_to_category overall_score)
  end.

End Scoring.

(** ** The default configuration and the votes of [test_vote_scorer] *)

Section Fixtures.

Context {num : Type} `{PyNumber num}.

Definition DEFAULT_CLIENT_VALUES : ClientValues num := {|
  name := "Economic Freedom Focus";
  client_description := "Fiscal discipline and economic freedom analysis";
  policy_weights :=
    <[TAX_POLICY := of_float 0.25]>
      (<[REGULATION := of_float 0.25]>
        (<[SPENDING := of_float 0.20]>
          (<[TRADE := of_float 0.15]>
            (<[LABOR_POLICY := of_float 0.15]> ∅))));
  score_interpretation :=
    <[STRONGLY_PRO_MARKET := "Champion of economic freedom"]>
      (<[LEANS_PRO_MARKET := "Generally supports free markets"]>
        (<[MIXED_MODERATE := "Mixed record on economic issues"]>
          (<[LEANS_REGULATORY := "Tends toward government intervention"]>
            (<[STRONGLY_REGULATORY := "Opposes free market principles"]> ∅))));
  preferred_vote_outcomes :=
    <["tax_cut" := true]>
      (<["tax_increase" := false]>
        (<["deregulation" := true]>
          (<["new_regulation" := false]>
            (<["spending_cut" := true]>
              (<["spending_increase" := false]>
                (<["free_trade" := true]>
                  (<["protectionism" := false]> ∅)))))))
|}.

End Fixtures.

(** [pro_market_vote] of [test_vote_scorer]; [now] is [datetime.now()]. *)
Definition pro_market_vote (now : datetime) : VerifiableVote := {|
  bill_id := "HR123";
  bill_name := "Tax Cuts Act";
  vote_date := now;
  vote_result := YEA;
  policy_area := TAX_POLICY;
  description := "Reduces corporate tax rates by 5%";
  source_url := None;
  verification_status := "pending"
|}.

(** A vote record with the defaults of the model for the fields the
    scorer does not read. *)
Definition a_vote (r : VoteResult) (a : PolicyArea) (d : string) : VerifiableVote := {|
  bill_id := "HR1";
  bill_name := "Bill";
  vote_date := 0%Z;
  vote_result := r;
  policy_area := a;
  description := d;
  source_url := None;
  verification_status := "pending"
|}.

(** A research result that carries the votes [votes]. *)
Definition a_result {num : Type} `{PyNumber num} (votes : list VerifiableVote) : ResearchResult num := {|
  candidate := {|
    candidate_id := "C1"; full_name := "Candidate"; office := "Senator";
    party := "I"; state_district := "XX"; committee_assignments := [];
    years_in_office := None; next_election := None |};
  policy_positions := [];
  verified_votes := votes;
  economic_score := of_float 50;
  score_category := MIXED_MODERATE;
  client_values_used := "Economic Freedom Focus";
  research_timestamp := 0%Z;
  data_completeness := of_float 1
|}.


(** A configuration whose only weight is the double nearest to [w], for
    tax policy. *)
Definition weight_config (w : Q) : ClientValues pynum := {|
  name := "One weight";
  client_description := "A single tax-policy weight";
  policy_weights := <[TAX_POLICY := of_float w]> ∅;
  score_interpretation := ∅;
  preferred_vote_outcomes := ∅
|}.

(** [x == 100] on Python numbers. *)
Definition is_100 (x : pynum) : bool :=
  match x with
  | PyInt z => (z =? 100)%Z
  | PyFloat f => SFeqb f (Binary64.float_of_Z 100)
  end.

(** A configuration and three votes on which the order of the votes
    shows in binary64. *)
Module Order.

(** Weights 1.0, 0.664 and 0.936 for three policy areas. *)
Definition client_values {num : Type} `{PyNumber num} : ClientValues num := {|
  name := "Three areas";
  client_description := "Weights 1.0, 0.664 and 0.936";
  policy_weights :=
    <[TAX_POLICY := of_float 1.0]>
      (<[REGULATION := of_float 0.664]>
        (<[SPENDING := of_float 0.936]> ∅));
  score_interpretation := score_interpretation (num := num) DEFAULT_CLIENT_VALUES;
  preferred_vote_outcomes := preferred_vote_outcomes (num := num) DEFAULT_CLIENT_VALUES
|}.

Definition tax_yea : VerifiableVote := a_vote YEA TAX_POLICY "tax cut".
Definition regulation_nay : VerifiableVote := a_vote NAY REGULATION "deregulation".
Definition spending_nay : VerifiableVote := a_vote NAY SPENDING "cut spending".

Definition votes : list VerifiableVote := [tax_yea; regulation_nay; spending_nay].
Definition votes' : list VerifiableVote := [tax_yea; spending_nay; regulation_nay].

End Order.

(** ** Exact arithmetic: comparison and clamping lemmas *)

Local Open Scope Q_scope.

Lemma Qlt_bool_iff (x y : Q) : Qlt_bool x y = true <-> x < y.
Proof.
  unfold Qlt_bool. rewrite Qlt_alt.
  destruct (x ?= y); split; intros E; congruence.
Qed.

Lemma Qlt_bool_false_iff (x y : Q) : Qlt_bool x y = false <-> y <= x.
Proof.
  rewrite <- not_true_iff_false, Qlt_bool_iff. split.
  - apply Qnot_lt_le.
  - apply Qle_not_lt.
Qed.

Lemma Qle_bool_false_iff (x y : Q) : Qle_bool x y = false <-> y < x.
Proof.
  rewrite <- not_true_iff_false, Qle_bool_iff. split.
  - apply Qnot_le_lt.
  - apply Qlt_not_le.
Qed.

(** The four outcomes of [max(0, min(100, x))]. *)
Lemma clamp_cases (x : Q) :
  let r := py_max (of_int 0) (py_min (of_int 100) x) in
  (x <= 0 /\ r = 0) \/ (0 < x < 100 /\ r = x) \/ (100 <= x /\ r = 100).
Proof.
  cbn. unfold py_max, py_min. cbn.
  destruct (Qlt_bool x (inject_Z 100)) eqn:E100.
  - apply Qlt_bool_iff in E100.
    destruct (Qlt_bool (inject_Z 0) x) eqn:E0.
    + apply Qlt_bool_iff in E0. right. left. auto.
    + apply Qlt_bool_false_iff in E0. left. auto.
  - apply Qlt_bool_false_iff in E100.
    assert (E : Qlt_bool (inject_Z 0) (inject_Z 100) = true) by reflexivity.
    rewrite E. right. right. auto.
Qed.

Lemma clamp_id (x : Q) :
  0 < x < 100 -> py_max (of_int 0) (py_min (of_int 100) x) = x.
Proof.
  intros Hx. destruct (clamp_cases x) as [[H0 _] | [[_ Hr] | [H100 _]]];
    [lra | exact Hr | lra].
Qed.

Lemma clamp_range (x : Q) :
  0 <= py_max (of_int 0) (py_min (of_int 100) x) <= 100.
Proof.
  destruct (clamp_cases x) as [[H0 Hr] | [[Hx Hr] | [H100 Hr]]];
    rewrite Hr; lra.
Qed.

(** [score_vote] at the exact instance, with the blend spelled out. *)
Lemma score_vote_unfold (client_values : ClientValues Q) (vote : VerifiableVote) :
  score_vote client_values vote =
  py_max (of_int 0) (py_min (of_int 100)
    (50 + (alignment_score vote - 50) * area_weight client_values vote * 2)).
Proof. reflexivity. Qed.

Lemma alignment_score_cases (vote : VerifiableVote) :
  alignment_score (num := Q) vote = 25 \/
  alignment_score (num := Q) vote = 50 \/
  alignment_score (num := Q) vote = 75.
Proof.
  unfold alignment_score.
  destruct (vote_result vote), (_vote_aligns_with_values vote); cbn; auto.
Qed.

(** ** Single votes *)

(** C1.  The scenario of the specification and of [test_vote_scorer]: a
    tax-policy vote, Yea, description ``Reduces corporate tax rates by 5%'',
    under a configuration whose tax-policy weight is 0.25.  None of the
    tax-cut terms is a substring of the lowered description (it reads
    ``reduces corporate tax'', not ``reduce tax''), so the code returns
    not aligned, raw alignment score 25 and final score 37.5, in exact
    arithmetic and bit for bit in binary64, where the test asserts a score
    above 50 and the specification gives aligned, 75 and 62.5. *)
Theorem pro_market_vote_scores_37_5 (now : datetime) :
  any_in tax_cut_terms (lower (description (pro_market_vote now))) = false /\
  _vote_aligns_with_values (pro_market_vote now) = false /\
  alignment_score (num := Q) (pro_market_vote now) = 25 /\
  policy_weights (num := Q) DEFAULT_CLIENT_VALUES !! TAX_POLICY = Some 0.25 /\
  score_vote (num := Q) DEFAULT_CLIENT_VALUES (pro_market_vote now) == 37.5 /\
  score_vote (num := pynum) DEFAULT_CLIENT_VALUES (pro_market_vote now)
    = of_float 37.5 /\
  py_lt (of_int 50) (score_vote (num := pynum) DEFAULT_CLIENT_VALUES (pro_market_vote now))
    = false.
Proof. repeat split; vm_compute; reflexivity. Qed.

(** C2.  A Present or Absent vote scores exactly 50 under every
    configuration, whatever its policy area, the weight of that area and
    the description. *)
Theorem score_vote_abstention (client_values : ClientValues Q) (vote : VerifiableVote) :
  vote_result vote = PRESENT \/ vote_result vote = ABSENT ->
  score_vote client_values vote == 50.
Proof.
  intros Hres. rewrite score_vote_unfold.
  assert (Ha : alignment_score (num := Q) vote = 50)
    by (unfold alignment_score; destruct Hres as [-> | ->]; reflexivity).
  rewrite Ha.
  set (w := area_weight client_values vote).
  assert (Hx : 50 + (50 - 50) * w * 2 == 50) by ring.
  rewrite clamp_id; [exact Hx | lra].
Qed.

Lemma score_vote_abstention_witness :
  score_vote (num := Q) DEFAULT_CLIENT_VALUES
    (a_vote PRESENT TAX_POLICY "Procedural motion on tax legislation") == 50.
Proof. apply score_vote_abstention. left. reflexivity. Defined.

(** The clamp alone bounds the score, for every weight. *)
Lemma score_vote_clamped (client_values : ClientValues Q) (vote : VerifiableVote) :
  0 <= score_vote client_values vote <= 100.
Proof. rewrite score_vote_unfold. apply clamp_range. Qed.

(** C5.  Whenever the weight of the vote's policy area is a non-negative
    number, the score lies in the closed interval from 0 to 100. *)
Theorem score_vote_in_range (client_values : ClientValues Q) (vote : VerifiableVote) (w : Q) :
  policy_weights client_values !! policy_area vote = Some w ->
  0 <= w ->
  0 <= score_vote client_values vote <= 100.
Proof. intros _ _. apply score_vote_clamped. Qed.

Lemma score_vote_in_range_witness :
  0 <= score_vote (num := Q) DEFAULT_CLIENT_VALUES
         (a_vote NAY SPENDING "Spending reduction act") <= 100.
Proof.
  apply (score_vote_in_range DEFAULT_CLIENT_VALUES
           (a_vote NAY SPENDING "Spending reduction act") 0.20).
  - reflexivity.
  - unfold Qle. simpl. lia.
Defined.

(** C7.  When the configuration has no weight for the vote's policy area,
    the weight used is 0.2 and the score is
    50 + (alignment_score - 50) * 0.2 * 2; the clamp leaves it as it is. *)
Theorem score_vote_default_weight (client_values : ClientValues Q) (vote : VerifiableVote) :
  policy_weights client_values !! policy_area vote = None ->
  area_weight client_values vote = 0.2 /\
  score_vote client_values vote = 50 + (alignment_score vote - 50) * 0.2 * 2.
Proof.
  intros Hnone.
  assert (Hw : area_weight client_values vote = 0.2)
    by (unfold area_weight; rewrite Hnone; reflexivity).
  split; [exact Hw |].
  rewrite score_vote_unfold, Hw.
  apply clamp_id.
  destruct (alignment_score_cases vote) as [-> | [-> | ->]]; lra.
Qed.

Lemma score_vote_default_weight_witness :
  let client_values : ClientValues Q := {|
    name := "No weights"; client_description := "";
    policy_weights := ∅; score_interpretation := ∅;
    preferred_vote_outcomes := ∅ |} in
  let vote := a_vote YEA TRADE "Free trade agreement" in
  area_weight client_values vote = 0.2 /\
  score_vote client_values vote = 50 + (alignment_score vote - 50) * 0.2 * 2.
Proof. intros client_values vote. apply score_vote_default_weight. reflexivity. Defined.




(** C10.  The score of a vote is a function of its [vote_result],
    [policy_area] and [description] and of the configuration's
    [policy_weights] alone: bill id and name, date, source URL and
    verification status play no part, so an unverified or disputed vote
    scores as a verified one.  This holds for every arithmetic. *)
Theorem score_vote_depends_only_on {num : Type} `{PyNumber num}
    (cv1 cv2 : ClientValues num) (v1 v2 : VerifiableVote) :
  policy_weights cv1 = policy_weights cv2 ->
  vote_result v1 = vote_result v2 ->
  policy_area v1 = policy_area v2 ->
  description v1 = description v2 ->
  score_vote cv1 v1 = score_vote cv2 v2.
Proof.
  intros Hweights Hres Harea Hdesc.
  unfold score_vote, area_weight, alignment_score, _vote_aligns_with_values.
  rewrite Hweights, Hres, Harea, Hdesc. reflexivity.
Qed.

Lemma score_vote_depends_only_on_witness :
  score_vote (num := Q) DEFAULT_CLIENT_VALUES
    {| bill_id := "HR123"; bill_name := "Tax Cuts Act"; vote_date := 1700000000%Z;
       vote_result := NAY; policy_area := TAX_POLICY;
       description := "Tax cut for small businesses";
       source_url := Some "https://clerk.house.gov/Votes/2023123";
       verification_status := "verified" |}
  = score_vote (num := Q)
    {| name := "Other"; client_description := "Same weights, other labels";
       policy_weights := policy_weights DEFAULT_CLIENT_VALUES;
       score_interpretation := ∅; preferred_vote_outcomes := ∅ |}
    {| bill_id := "S9"; bill_name := "Renamed"; vote_date := 0%Z;
       vote_result := NAY; policy_area := TAX_POLICY;
       description := "Tax cut for small businesses";
       source_url := None; verification_status := "disputed" |}.
Proof. apply score_vote_depends_only_on; reflexivity. Defined.

(** ** The classifier *)




(** ** The scoring engine *)

(** C3.  With no verified votes the engine returns the pair of the float
    50.0 and [MIXED_MODERATE], under every configuration and in every
    arithmetic; no other path is taken. *)
Theorem calculate_overall_score_empty {num : Type} `{PyNumber num}
    (client_values : ClientValues num) (research_result : ResearchResult num) :
  verified_votes research_result = [] ->
  calculate_overall_score client_values research_result = (of_float 50, MIXED_MODERATE).
Proof.
  intros Hempty. unfold calculate_overall_score. rewrite Hempty. reflexivity.
Qed.

Lemma calculate_overall_score_empty_witness :
  calculate_overall_score (num := Q) DEFAULT_CLIENT_VALUES (a_result []) = (50, MIXED_MODERATE).
Proof.
  exact (calculate_overall_score_empty (num := Q) DEFAULT_CLIENT_VALUES (a_result []) eq_refl).
Defined.

(** C4.  The thresholds are inclusive below: 80 and more is
    [STRONGLY_PRO_MARKET], from 60 up to but not 80 [LEANS_PRO_MARKET],
    from 40 [MIXED_MODERATE], from 20 [LEANS_REGULATORY], and everything
    under 20 [STRONGLY_REGULATORY]; so 80.0, 79.9, 60.0, 40.0 and 20.0 fall
    in the bands the specification lists. *)
Theorem score_to_category_thresholds (score : Q) :
  (80 <= score -> _score_to_category score = STRONGLY_PRO_MARKET) /\
  (60 <= score < 80 -> _score_to_category score = LEANS_PRO_MARKET) /\
  (40 <= score < 60 -> _score_to_category score = MIXED_MODERATE) /\
  (20 <= score < 40 -> _score_to_category score = LEANS_REGULATORY) /\
  (score < 20 -> _score_to_category score = STRONGLY_REGULATORY) /\
  _score_to_category (num := Q) 80.0 = STRONGLY_PRO_MARKET /\
  _score_to_category (num := Q) 79.9 = LEANS_PRO_MARKET /\
  _score_to_category (num := Q) 60.0 = LEANS_PRO_MARKET /\
  _score_to_category (num := Q) 40.0 = MIXED_MODERATE /\
  _score_to_category (num := Q) 20.0 = LEANS_REGULATORY.
Proof.
  unfold _score_to_category. cbn [py_le of_int Q_number].
  repeat match goal with |- _ /\ _ => split end; try reflexivity;
    intros Hs;
    destruct (Qle_bool (inject_Z 80) score) eqn:E80;
    destruct (Qle_bool (inject_Z 60) score) eqn:E60;
    destruct (Qle_bool (inject_Z 40) score) eqn:E40;
    destruct (Qle_bool (inject_Z 20) score) eqn:E20;
    try reflexivity; exfalso;
    repeat match goal with
      | E : Qle_bool _ _ = true |- _ => apply Qle_bool_iff in E
      | E : Qle_bool _ _ = false |- _ => apply Qle_bool_false_iff in E
      end;
    unfold inject_Z in *; lra.
Qed.

Lemma score_to_category_thresholds_witness :
  _score_to_category (num := Q) 93.75 = STRONGLY_PRO_MARKET /\
  _score_to_category (num := Q) 62.5 = LEANS_PRO_MARKET /\
  _score_to_category (num := Q) 59.99 = MIXED_MODERATE /\
  _score_to_category (num := Q) 37.5 = LEANS_REGULATORY /\
  _score_to_category (num := Q) 19.99 = STRONGLY_REGULATORY.
Proof.
  refine (conj _ (conj _ (conj _ (conj _ _)))).
  - destruct (score_to_category_thresholds 93.75) as (Hband & _).
    apply Hband. unfold Qle. simpl. lia.
  - destruct (score_to_category_thresholds 62.5) as (_ & Hband & _).
    apply Hband. unfold Qle, Qlt. simpl. lia.
  - destruct (score_to_category_thresholds 59.99) as (_ & _ & Hband & _).
    apply Hband. unfold Qle, Qlt. simpl. lia.
  - destruct (score_to_category_thresholds 37.5) as (_ & _ & _ & Hband & _).
    apply Hband. unfold Qle, Qlt. simpl. lia.
  - destruct (score_to_category_thresholds 19.99) as (_ & _ & _ & _ & Hband & _).
    apply Hband. unfold Qlt. simpl. lia.
Defined.

(** *** Order of the votes *)







(** There both orders give the mean 40, on the threshold of
    [MIXED_MODERATE]. *)
Example order_exact :
  fst (calculate_overall_score (num := Q) Order.client_values (a_result Order.votes)) == 40 /\
  snd (calculate_overall_score (num := Q) Order.client_values (a_result Order.votes))
    = MIXED_MODERATE.
Proof. split; vm_compute; reflexivity. Qed.

(** *** The same aggregation in binary64 *)

(** The three scores are the [int] 100 (clamped) and the doubles
    16.799999999999997 and 3.1999999999999957. *)
Example order_scores :
  map (score_vote (num := pynum) Order.client_values) Order.votes
  = [of_int 100; of_float 16.799999999999997; of_float 3.1999999999999957].
Proof. vm_compute. reflexivity. Qed.

(** The additions of [sum] in the two orders, each rounded to the
    nearest double. *)
Example order_partial_sums :
  py_add (of_int 100) (of_float 16.799999999999997) = of_float (num := pynum) 116.8 /\
  py_add (of_float 116.8) (of_float 3.1999999999999957) = of_float (num := pynum) 120.0 /\
  py_add (of_int 100) (of_float 3.1999999999999957)
    = of_float (num := pynum) 103.19999999999999 /\
  py_add (of_float 103.19999999999999) (of_float 16.799999999999997)
    = of_float (num := pynum) 119.99999999999999 /\
  py_truediv (of_float 120.0) (of_int 3) = of_float (num := pynum) 40.0 /\
  py_truediv (of_float 119.99999999999999) (of_int 3)
    = of_float (num := pynum) 39.99999999999999.
Proof. repeat split; vm_compute; reflexivity. Qed.


(** The compensated summation of later interpreters changes nothing here:
    on both orders it returns the sum of the plain left-to-right
    additions, 120.0 and 119.99999999999999. *)
Example order_dependent_compensated :
  Binary64.sum_compensated (map (score_vote (num := pynum) Order.client_values) Order.votes)
    = of_float 120.0 /\
  py_sum (map (score_vote (num := pynum) Order.client_values) Order.votes) = of_float 120.0 /\
  Binary64.sum_compensated (map (score_vote (num := pynum) Order.client_values) Order.votes')
    = of_float 119.99999999999999 /\
  py_sum (map (score_vote (num := pynum) Order.client_values) Order.votes')
    = of_float 119.99999999999999.
Proof. repeat split; vm_compute; reflexivity. Qed.

(** ** Single votes in binary64

    The laws of single votes proved above in exact arithmetic, read on the
    doubles the interpreter computes with. *)

Lemma b64_lt_le (x y : pynum) : Binary64.lt x y = true -> Binary64.le x y = true.
Proof.
  destruct x as [a | f], y as [b | g]; cbn; unfold SFltb, SFleb;
    try (destruct (SFcompare _ _) as [[] |]; congruence).
  intros Hlt. apply Z.leb_le. apply Z.ltb_lt in Hlt. lia.
Qed.

(** The clamp bounds every value, a NaN included: [min(100, nan)] is 100. *)
Lemma b64_clamp_range (x : pynum) :
  py_le (of_int 0) (py_max (of_int 0) (py_min (of_int 100) x)) = true /\
  py_le (py_max (of_int 0) (py_min (of_int 100) x)) (of_int 100) = true.
Proof.
  unfold py_max, py_min. cbn [py_lt py_le of_int pynum_number].
  destruct (Binary64.lt x (PyInt 100)) eqn:E100.
  - destruct (Binary64.lt (PyInt 0) x) eqn:E0.
    + split; apply b64_lt_le; assumption.
    + split; reflexivity.
  - cbn. split; reflexivity.
Qed.

(** The score lies between 0 and 100 for every configuration. *)
Lemma b64_score_vote_in_range (client_values : ClientValues pynum) (vote : VerifiableVote) :
  py_le (of_int 0) (score_vote client_values vote) = true /\
  py_le (score_vote client_values vote) (of_int 100) = true.
Proof. unfold score_vote. apply b64_clamp_range. Qed.

(** An abstention scores the double 50.0 when the weight of its area is
    missing or a finite double. *)
Lemma b64_score_vote_abstention (client_values : ClientValues pynum) (vote : VerifiableVote) :
  vote_result vote = PRESENT \/ vote_result vote = ABSENT ->
  (forall w, policy_weights client_values !! policy_area vote = Some w ->
             exists f, w = PyFloat f /\ Binary64.is_finite f = true) ->
  score_vote client_values vote = of_float 50.
Proof.
  intros Hres Hw. unfold score_vote.
  assert (Ha : alignment_score (num := pynum) vote = of_float 50)
    by (unfold alignment_score; destruct Hres as [-> | ->]; reflexivity).
  rewrite Ha. unfold area_weight.
  destruct (policy_weights client_values !! policy_area vote) as [w |] eqn:E.
  - destruct (Hw w eq_refl) as (f & -> & Hf). cbn [default].
    destruct f as [s | s | | s m e]; try discriminate;
      destruct s; vm_compute; reflexivity.
  - vm_compute. reflexivity.
Qed.

(** With the default weight 0.2 the doubles are 60.0, 40.0 and 50.0. *)
Lemma b64_score_vote_default_weight (client_values : ClientValues pynum) (vote : VerifiableVote) :
  policy_weights client_values !! policy_area vote = None ->
  score_vote client_values vote
  = match vote_result vote, _vote_aligns_with_values vote with
    | YEA, true | NAY, false => of_float 60
    | YEA, false | NAY, true => of_float 40
    | (PRESENT | ABSENT), _ => of_float 50
    end.
Proof.
  intros Hnone. unfold score_vote, area_weight, alignment_score.
  rewrite Hnone.
  destruct (vote_result vote), (_vote_aligns_with_values vote);
    vm_compute; reflexivity.
Qed.

(** *** Thresholds on doubles

    Python compares a [float] with an [int] literal by value; on doubles
    the order is [SFcompare], antisymmetric and transitive. *)

Lemma SFcompare_antisym (x y : spec_float) :
  SFcompare y x = option_map CompOpp (SFcompare x y).
Proof.
  destruct x as [sx | sx | | sx mx ex], y as [sy | sy | | sy my ey];
    try reflexivity; try (destruct sx; reflexivity); try (destruct sy; reflexivity);
    try (destruct sx, sy; reflexivity).
  simpl. change (Pos.compare_cont Eq my mx) with (my ?= mx)%positive.
  change (Pos.compare_cont Eq mx my) with (mx ?= my)%positive.
  rewrite (Z.compare_antisym ex ey), (Pos.compare_antisym mx my).
  destruct sx, sy; try reflexivity; f_equal;
    destruct (ex ?= ey)%Z; try reflexivity; simpl;
    try rewrite CompOpp_involutive; reflexivity.
Qed.

Lemma SFltb_not_SFleb (x y : spec_float) : SFltb x y = true -> SFleb y x = false.
Proof.
  unfold SFltb, SFleb. rewrite (SFcompare_antisym x y).
  destruct (SFcompare x y) as [[] |]; simpl; congruence.
Qed.

Lemma SFleb_trans (x y z : spec_float) :
  SFleb x y = true -> SFleb y z = true -> SFleb x z = true.
Proof.
  unfold SFleb.
  destruct x as [sx | sx | | sx mx ex], y as [sy | sy | | sy my ey],
    z as [sz | sz | | sz mz ez]; simpl;
    try discriminate; try reflexivity;
    repeat match goal with s : bool |- _ => destruct s end; simpl;
    try discriminate; try reflexivity; try (intros; assumption).
  all: intros H1 H2.
  all: repeat match goal with
       | H : context [Pos.compare_cont Eq ?a ?b] |- _ =>
           change (Pos.compare_cont Eq a b) with (a ?= b)%positive in H
       | |- context [Pos.compare_cont Eq ?a ?b] =>
           change (Pos.compare_cont Eq a b) with (a ?= b)%positive
       end.
  all: destruct (Z.compare_spec ex ey), (Z.compare_spec ey ez), (Z.compare_spec ex ez);
    subst; try lia; try discriminate; try reflexivity;
    try (destruct (Pos.compare_spec mx my), (Pos.compare_spec my mz), (Pos.compare_spec mx mz);
         subst; simpl in *; try lia; try discriminate; try reflexivity).
Qed.

(** The five bands on doubles (and on [int] scores). *)
Lemma b64_score_to_category_thresholds (score : pynum) :
  (py_le (of_int 80) score = true -> _score_to_category score = STRONGLY_PRO_MARKET) /\
  (py_le (of_int 60) score = true -> py_lt score (of_int 80) = true ->
     _score_to_category score = LEANS_PRO_MARKET) /\
  (py_le (of_int 40) score = true -> py_lt score (of_int 60) = true ->
     _score_to_category score = MIXED_MODERATE) /\
  (py_le (of_int 20) score = true -> py_lt score (of_int 40) = true ->
     _score_to_category score = LEANS_REGULATORY) /\
  (py_lt score (of_int 20) = true -> _score_to_category score = STRONGLY_REGULATORY).
Proof.
  unfold _score_to_category. cbn [py_le py_lt of_int pynum_number].
  destruct score as [z | f]; cbn [Binary64.le Binary64.lt Binary64.as_float].
  - repeat match goal with |- _ /\ _ => split end; intros;
      repeat match goal with
        | H : (_ <=? _)%Z = true |- _ => apply Z.leb_le in H
        | H : (_ <? _)%Z = true |- _ => apply Z.ltb_lt in H
        end;
      repeat match goal with
        | |- context [(?a <=? ?b)%Z] => destruct (Z.leb_spec a b)
        end; try reflexivity; lia.
  - set (c20 := Binary64.float_of_Z 20). set (c40 := Binary64.float_of_Z 40).
    set (c60 := Binary64.float_of_Z 60). set (c80 := Binary64.float_of_Z 80).
    assert (H24 : SFleb c20 c40 = true) by reflexivity.
    assert (H46 : SFleb c40 c60 = true) by reflexivity.
    assert (H68 : SFleb c60 c80 = true) by reflexivity.
    pose proof (SFleb_trans c20 c40 f H24) as T24.
    pose proof (SFleb_trans c40 c60 f H46) as T46.
    pose proof (SFleb_trans c60 c80 f H68) as T68.
    pose proof (SFltb_not_SFleb f c20) as N20.
    pose proof (SFltb_not_SFleb f c40) as N40.
    pose proof (SFltb_not_SFleb f c60) as N60.
    pose proof (SFltb_not_SFleb f c80) as N80.
    destruct (SFleb c80 f) eqn:E80, (SFleb c60 f) eqn:E60,
             (SFleb c40 f) eqn:E40, (SFleb c20 f) eqn:E20;
      repeat match goal with |- _ /\ _ => split end; intros;
      try reflexivity; exfalso;
      repeat match goal with
        | H : ?a = ?a -> _ |- _ => specialize (H eq_refl)
        | H : SFltb _ _ = true, N : SFltb _ _ = true -> _ |- _ => specialize (N H)
        end; congruence.
Qed.

(** The boundary values of the specification as doubles; 79.9 is the
    double nearest to it, just under 80. *)
Example b64_score_to_category_boundaries :
  _score_to_category (num := pynum) (of_float 80.0) = STRONGLY_PRO_MARKET /\
  _score_to_category (num := pynum) (of_float 79.9) = LEANS_PRO_MARKET /\
  _score_to_category (num := pynum) (of_float 60.0) = LEANS_PRO_MARKET /\
  _score_to_category (num := pynum) (of_float 40.0) = MIXED_MODERATE /\
  _score_to_category (num := pynum) (of_float 20.0) = LEANS_REGULATORY /\
  _score_to_category (num := pynum) (of_float 19.999999999999996) = STRONGLY_REGULATORY.
Proof. repeat split; vm_compute; reflexivity. Qed.

(** Each vote is scored on its own, so in every arithmetic a permutation
    of the votes permutes the scores; only their summation sees the order. *)
Lemma score_votes_Permutation {num : Type} `{PyNumber num}
    (client_values : ClientValues num) (votes votes' : list VerifiableVote) :
  Permutation votes votes' ->
  Permutation (map (score_vote client_values) votes)
              (map (score_vote client_values) votes').
Proof. apply Permutation_map. Qed.

(** On doubles the Yea and the Nay score of a bill add up to 100.0 for
    every weight 0.000, 0.001, ..., 2.000, aligned or not, although the two
    doubles need not be mirror images about 50: with weight 0.55 they are
    77.5 and 22.499999999999996, and it is the rounding of their sum that
    gives 100.0. *)
Example b64_yea_nay_sum_thousandths :
  forallb (fun k =>
    let client_values := weight_config (Z.of_nat k # 1000) in
    forallb (fun d =>
      is_100 (py_add (score_vote client_values (a_vote YEA TAX_POLICY d))
                     (score_vote client_values (a_vote NAY TAX_POLICY d))))
      ["tax cut"; "procedural motion"])
    (seq 0 2001) = true.
Proof. vm_compute. reflexivity. Qed.

Example b64_yea_nay_not_mirror :
  score_vote (weight_config 0.55) (a_vote YEA TAX_POLICY "tax cut") = of_float 77.5 /\
  score_vote (weight_config 0.55) (a_vote NAY TAX_POLICY "tax cut")
    = of_float 22.499999999999996 /\
  py_add (of_float 77.5) (of_float 22.499999999999996) = of_float (num := pynum) 100.0.
Proof. repeat split; vm_compute; reflexivity. Qed.
